(** * paella/debug.py: the environment-driven binding of [bb]

    The module body of [deps/readies/paella/debug.py] reads [PYDEBUG]
    (falling back to [BB]) from the process environment and binds the
    module global [bb] to the [set_trace] function of [pudb], [ipdb] or
    [pdb], or to a local function that does nothing.

    The body is embedded as a computation over an explicit process state:
    the environment table [os.environ], the module's global namespace and
    the trace of writes to the environment.  An exception keeps the state
    reached so far, as in Python: a write to [os.environ] that happened
    before a failing import stays. *)

From stdpp Require Import base strings gmap fin_maps.

Local Open Scope string_scope.

(** ** Values *)

(** The three debugger modules the body names in its import statements. *)
Inductive module := pudb | ipdb | pdb.

#[global] Instance module_eq_dec : EqDecision module.
Proof. solve_decision. Defined.

(** What [bb] can be bound to: [from m import set_trace as bb], or the
    function of line 26, [def bb(): pass]. *)
Inductive callable :=
  | set_trace (m : module)
  | def_bb.

#[global] Instance callable_eq_dec : EqDecision callable.
Proof. solve_decision. Defined.

(** The values the module's globals hold. *)
Inductive pyvalue :=
  | PyNone
  | PyStr (s : string)
  | PyModule (name : string)
  | PyCallable (c : callable).

Inductive exn :=
  | ImportError (m : module)
  | TypeError.

(** ** Process state *)

Record proc := Proc {
  environ : gmap string string;          (* os.environ *)
  globals : gmap string pyvalue;         (* the namespace of paella.debug *)
  putenv  : list (string * string)       (* writes to os.environ, oldest first *)
}.

(** The state the loader starts the module body in. *)
Definition fresh (env : gmap string string) : proc :=
  Proc env ∅ [].

(** ** Computations that may raise *)

Inductive outcome (A : Type) :=
  | Returned (a : A)
  | Raised (e : exn).
Arguments Returned {A} a.
Arguments Raised {A} e.

Definition Py (A : Type) : Type := proc → outcome A * proc.

Definition raise {A} (e : exn) : Py A := λ st, (Raised e, st).

(** Sequencing: a statement that raises ends the sequence, in the state
    it raised in. *)
#[global] Instance Py_ret : MRet Py := λ A a st, (Returned a, st).

#[global] Instance Py_bind : MBind Py := λ A B k c st,
  match c st with
  | (Returned a, st') => k a st'
  | (Raised e, st') => (Raised e, st')
  end.

(** [try: body / except ImportError: handler]. *)
Definition try_except_ImportError {A} (body handler : Py A) : Py A :=
  λ st, match body st with
        | (Raised (ImportError _), st') => handler st'
        | r => r
        end.

(** ** Primitive statements *)

(** [os.environ.get(k, d)] *)
Definition environ_get (k d : string) : Py string :=
  λ st, (Returned (default d (environ st !! k)), st).

(** What [os.environ.get(k, '')] reads in the environment [env]. *)
Definition getenv (env : gmap string string) (k : string) : string :=
  default "" (env !! k).

(** [os.environ[k] = v] *)
Definition environ_set (k v : string) : Py unit :=
  λ st, (Returned tt,
         Proc (<[k := v]> (environ st)) (globals st) (putenv st ++ [(k, v)])).

(** [name = v] at module level. *)
Definition assign (name : string) (v : pyvalue) : Py unit :=
  λ st, (Returned tt, Proc (environ st) (<[name := v]> (globals st)) (putenv st)).

Section Loader.

(** Which of the statements [from m import set_trace] succeed in the
    interpreter that loads the module. *)
Variable importable : module → bool.

(** [from m import set_trace as bb] *)
Definition from_import_set_trace_as_bb (m : module) : Py unit :=
  if importable m then assign "bb" (PyCallable (set_trace m))
  else raise (ImportError m).

(** Lines 6-10. Returns the value [pydebug] holds at line 11. *)
Definition resolve_pydebug : Py string :=
  pydebug ← environ_get "PYDEBUG" "";
  assign "pydebug" (PyStr pydebug);;
  if String.eqb pydebug "" then
    pydebug ← environ_get "BB" "";
    assign "pydebug" (PyStr pydebug);;
    (if negb (String.eqb pydebug "") then environ_set "PYDEBUG" pydebug
     else mret tt);;
    mret pydebug
  else mret pydebug.

(** Lines 11-26. *)
Definition bind_bb (pydebug : string) : Py unit :=
  if String.eqb pydebug "1" then
    try_except_ImportError
      (from_import_set_trace_as_bb pudb)
      (try_except_ImportError
         (from_import_set_trace_as_bb ipdb)
         (from_import_set_trace_as_bb pdb))
  else if String.eqb pydebug "pudb" then from_import_set_trace_as_bb pudb
  else if String.eqb pydebug "pdb" then from_import_set_trace_as_bb pdb
  else if String.eqb pydebug "ipdb" then from_import_set_trace_as_bb ipdb
  else assign "bb" (PyCallable def_bb).

(** The whole module body. *)
Definition module_body : Py unit :=
  assign "os" (PyModule "os");;
  pydebug ← resolve_pydebug;
  bind_bb pydebug.

(** Loading the module in a process whose environment is [env]. *)
Definition load (env : gmap string string) : outcome unit * proc :=
  module_body (fresh env).

End Loader.

(** ** Calling [bb] *)

Section Call.

(** The debuggers' [set_trace] functions are not part of this file. *)
Variable debugger : module → nat → Py pyvalue.

(** [c(a1, ..., an)] with [nargs = n]. *)
Definition call (c : callable) (nargs : nat) : Py pyvalue :=
  match c with
  | set_trace m => debugger m nargs
  | def_bb => match nargs with
              | O => mret PyNone
              | S _ => raise TypeError
              end
  end.

End Call.

(** ** Observations on a finished load *)

(** The load returned and left [bb] bound to [c]. *)
Definition binds (r : outcome unit * proc) (c : callable) : Prop :=
  r.1 = Returned tt ∧ globals r.2 !! "bb" = Some (PyCallable c).

(** The load raised [ImportError] for [m] and left [bb] unbound. *)
Definition fails (r : outcome unit * proc) (m : module) : Prop :=
  r.1 = Raised (ImportError m) ∧ globals r.2 !! "bb" = None.

(** The value the global [pydebug] holds when the body is left: the
    selector the chain of line 11 onwards compared. *)
Definition selector (r : outcome unit * proc) : option pyvalue :=
  globals r.2 !! "pydebug".

(** The four selector values the chain compares with. *)
Definition recognized (s : string) : Prop :=
  s = "1" ∨ s = "pudb" ∨ s = "pdb" ∨ s = "ipdb".

(** Interpreters used as concrete inputs. *)
Definition no_debugger (m : module) : bool := false.
Definition only_pdb (m : module) : bool :=
  match m with pdb => true | _ => false end.
Definition ipdb_and_pdb (m : module) : bool :=
  match m with pudb => false | _ => true end.
Definition all_debuggers (m : module) : bool := true.

(** ** The two halves of the body *)

(** The value lines 6-10 leave in [pydebug], read off the environment. *)
Definition resolved (env : gmap string string) : string :=
  if String.eqb (getenv env "PYDEBUG") "" then getenv env "BB"
  else getenv env "PYDEBUG".

(** Whether line 10 is reached. *)
Definition copies (env : gmap string string) : bool :=
  String.eqb (getenv env "PYDEBUG") "" && negb (String.eqb (getenv env "BB") "").

(** The state in which line 11 is entered. *)
Definition at_line_11 (env : gmap string string) : proc :=
  Proc (if copies env then <["PYDEBUG" := getenv env "BB"]> env else env)
       (<["pydebug" := PyStr (resolved env)]> {["os" := PyModule "os"]})
       (if copies env then [("PYDEBUG", getenv env "BB")] else []).

Ltac run :=
  unfold load, module_body, resolve_pydebug, bind_bb,
    from_import_set_trace_as_bb, try_except_ImportError,
    mbind, Py_bind, mret, Py_ret, environ_get, environ_set, assign, raise,
    fresh; simpl.

Lemma resolve_pydebug_run env :
  resolve_pydebug (Proc env {["os" := PyModule "os"]} []) =
  (Returned (resolved env), at_line_11 env).
Proof.
  run. unfold at_line_11, resolved, copies, getenv.
  destruct (String.eqb (default "" (env !! "PYDEBUG")) ""); simpl; [ | done].
  rewrite insert_insert_eq.
  by destruct (String.eqb (default "" (env !! "BB")) "").
Qed.

Lemma load_resolved importable env :
  load importable env = bind_bb importable (resolved env) (at_line_11 env).
Proof.
  unfold load, module_body, fresh.
  unfold mbind at 1, Py_bind at 1. unfold assign at 1.
  unfold mbind, Py_bind. simpl.
  rewrite insert_empty. by rewrite resolve_pydebug_run.
Qed.

(** Lines 11-26 touch nothing but the global [bb]. *)
Lemma bind_bb_frame importable s st :
  let st' := (bind_bb importable s st).2 in
  environ st' = environ st ∧ putenv st' = putenv st ∧
  ∀ name, name ≠ "bb" → globals st' !! name = globals st !! name.
Proof.
  run.
  repeat match goal with
         | |- context [String.eqb ?a ?b] => destruct (String.eqb a b)
         | |- context [importable ?m] => destruct (importable m)
         end; simpl; repeat split; try done;
    intros name Hname; by rewrite lookup_insert_ne.
Qed.

(** The outcome of an import statement entered with [bb] unbound. *)
Lemma import_run (importable : module → bool) m st :
  globals st !! "bb" = None →
  if importable m
  then binds (from_import_set_trace_as_bb importable m st) (set_trace m)
  else fails (from_import_set_trace_as_bb importable m st) m.
Proof.
  intros Hbb. unfold binds, fails. run.
  destruct (importable m); simpl; [ | done].
  by rewrite lookup_insert_eq.
Qed.

Lemma at_line_11_unbound env : globals (at_line_11 env) !! "bb" = None.
Proof. done. Qed.

(** The selector the chain compares is [resolved env], whatever the
    chain does afterwards. *)
Lemma selector_load importable env :
  selector (load importable env) = Some (PyStr (resolved env)).
Proof.
  unfold selector. rewrite load_resolved.
  destruct (bind_bb_frame importable (resolved env) (at_line_11 env))
    as (_ & _ & Hg).
  rewrite Hg by done. done.
Qed.

Lemma selector_resolved importable env s :
  selector (load importable env) = Some (PyStr s) → resolved env = s.
Proof. rewrite selector_load. congruence. Qed.

(** The chain at each of its five exits. *)
Lemma bind_bb_1 (importable : module → bool) st :
  bind_bb importable "1" st =
  if importable pudb then from_import_set_trace_as_bb importable pudb st
  else if importable ipdb then from_import_set_trace_as_bb importable ipdb st
  else from_import_set_trace_as_bb importable pdb st.
Proof. run. by destruct (importable pudb), (importable ipdb). Qed.

Lemma bind_bb_pudb importable st :
  bind_bb importable "pudb" st = from_import_set_trace_as_bb importable pudb st.
Proof. done. Qed.

Lemma bind_bb_pdb importable st :
  bind_bb importable "pdb" st = from_import_set_trace_as_bb importable pdb st.
Proof. done. Qed.

Lemma bind_bb_ipdb importable st :
  bind_bb importable "ipdb" st = from_import_set_trace_as_bb importable ipdb st.
Proof. done. Qed.

Lemma bind_bb_else importable s st :
  ¬ recognized s →
  bind_bb importable s st = assign "bb" (PyCallable def_bb) st.
Proof.
  unfold recognized. intros Hs. unfold bind_bb.
  destruct (String.eqb_spec s "1"); [tauto | ].
  destruct (String.eqb_spec s "pudb"); [tauto | ].
  destruct (String.eqb_spec s "pdb"); [tauto | ].
  destruct (String.eqb_spec s "ipdb"); [tauto | ]. done.
Qed.

Lemma assign_def_bb_binds st :
  binds (assign "bb" (PyCallable def_bb) st) def_bb.
Proof. unfold binds, assign. simpl. by rewrite lookup_insert_eq. Qed.

(** [binds] and [fails] exclude each other, and [binds] fixes the callable. *)
Lemma binds_inj r c1 c2 : binds r c1 → binds r c2 → c1 = c2.
Proof. unfold binds. intros [_ H1] [_ H2]. congruence. Qed.

Lemma binds_not_fails r c m : binds r c → ¬ fails r m.
Proof. unfold binds, fails. intros [H1 _] [H2 _]. congruence. Qed.

(** What the chain does for the selector ["1"], by the three imports. *)
Lemma chain_1 (importable : module → bool) env :
  resolved env = "1" →
  match importable pudb, importable ipdb, importable pdb with
  | true, _, _ => binds (load importable env) (set_trace pudb)
  | false, true, _ => binds (load importable env) (set_trace ipdb)
  | false, false, true => binds (load importable env) (set_trace pdb)
  | false, false, false => fails (load importable env) pdb
  end.
Proof.
  intros Hs. rewrite load_resolved, Hs, bind_bb_1.
  pose proof (at_line_11_unbound env) as Hbb.
  pose proof (import_run importable pudb _ Hbb) as H1.
  pose proof (import_run importable ipdb _ Hbb) as H2.
  pose proof (import_run importable pdb _ Hbb) as H3.
  by destruct (importable pudb), (importable ipdb), (importable pdb).
Qed.

(** What the chain does for a selector that names a module. *)
Lemma chain_named (importable : module → bool) env s m :
  resolved env = s →
  (s = "pudb" ∧ m = pudb) ∨ (s = "ipdb" ∧ m = ipdb) ∨ (s = "pdb" ∧ m = pdb) →
  if importable m then binds (load importable env) (set_trace m)
  else fails (load importable env) m.
Proof.
  intros Hs Hm. rewrite load_resolved, Hs.
  pose proof (import_run importable m _ (at_line_11_unbound env)) as Hrun.
  destruct Hm as [[-> ->]|[[-> ->]|[-> ->]]]; exact Hrun.
Qed.

(** C1, as stated, fails in its last clause: with the selector "1" and
    neither pudb nor ipdb importable, [bb] is not bound to
    [pdb.set_trace] when pdb is not importable either; the import of
    line 18 raises. *)
Lemma selector_1_third_fallback_needs_pdb :
  selector (load no_debugger {["PYDEBUG" := "1"]}) = Some (PyStr "1") ∧
  no_debugger pudb = false ∧ no_debugger ipdb = false ∧
  ¬ binds (load no_debugger {["PYDEBUG" := "1"]}) (set_trace pdb).
Proof.
  refine (conj _ (conj _ (conj _ _))); try reflexivity.
  intros [Ho _]. vm_compute in Ho. discriminate Ho.
Qed.

(** C1, amended: when the selector is "1", [bb] is bound to
    [pudb.set_trace] if pudb is importable; otherwise to [ipdb.set_trace]
    if ipdb is; otherwise to [pdb.set_trace] provided pdb is importable.
    A fallback is taken only when every earlier candidate is unavailable:
    a binding to ipdb's function means pudb is not importable, a binding
    to pdb's function means neither pudb nor ipdb is. *)
Theorem selector_1_fallback_order (importable : module → bool) env :
  selector (load importable env) = Some (PyStr "1") →
  (importable pudb = true → binds (load importable env) (set_trace pudb)) ∧
  (importable pudb = false → importable ipdb = true →
     binds (load importable env) (set_trace ipdb)) ∧
  (importable pudb = false → importable ipdb = false → importable pdb = true →
     binds (load importable env) (set_trace pdb)) ∧
  (binds (load importable env) (set_trace ipdb) → importable pudb = false) ∧
  (binds (load importable env) (set_trace pdb) →
     importable pudb = false ∧ importable ipdb = false).
Proof.
  intros Hsel. apply selector_resolved in Hsel.
  pose proof (chain_1 importable env Hsel) as Hrun.
  refine (conj _ (conj _ (conj _ (conj _ _)))).
  - intros H1. by rewrite H1 in Hrun.
  - intros H1 H2. by rewrite H1, H2 in Hrun.
  - intros H1 H2 H3. by rewrite H1, H2, H3 in Hrun.
  - intros Hb. destruct (importable pudb); [ | done].
    discriminate (binds_inj _ _ _ Hrun Hb).
  - intros Hb.
    destruct (importable pudb), (importable ipdb); try done;
      discriminate (binds_inj _ _ _ Hrun Hb).
Qed.

Lemma selector_1_fallback_order_witness :
  binds (load ipdb_and_pdb {["PYDEBUG" := "1"]}) (set_trace ipdb) ∧
  binds (load only_pdb {["PYDEBUG" := "1"]}) (set_trace pdb) ∧
  only_pdb pudb = false ∧ only_pdb ipdb = false.
Proof.
  split; [ | split].
  - apply (selector_1_fallback_order ipdb_and_pdb {["PYDEBUG" := "1"]});
      reflexivity.
  - apply (selector_1_fallback_order only_pdb {["PYDEBUG" := "1"]});
      reflexivity.
  - apply (selector_1_fallback_order only_pdb {["PYDEBUG" := "1"]});
      [reflexivity | ].
    apply (selector_1_fallback_order only_pdb {["PYDEBUG" := "1"]});
      reflexivity.
Defined.

(** C4: when the selector is "pudb" or "ipdb" and the module it names is
    not importable, the load raises [ImportError] for that module to the
    loader, whatever else is importable: [bb] is left unbound and no other
    binding takes its place. *)
Theorem named_selector_import_error (importable : module → bool) env s m :
  selector (load importable env) = Some (PyStr s) →
  (s = "pudb" ∧ m = pudb) ∨ (s = "ipdb" ∧ m = ipdb) →
  importable m = false →
  fails (load importable env) m ∧ ∀ c, ¬ binds (load importable env) c.
Proof.
  intros Hsel Hm Him. apply selector_resolved in Hsel.
  assert (fails (load importable env) m) as Hf.
  { pose proof (chain_named importable env s m Hsel) as Hrun.
    rewrite Him in Hrun. apply Hrun. tauto. }
  split; [done | ]. intros c Hb. exact (binds_not_fails _ _ _ Hb Hf).
Qed.

Lemma named_selector_import_error_witness :
  fails (load ipdb_and_pdb {["PYDEBUG" := "pudb"]}) pudb ∧
  fails (load only_pdb {["BB" := "ipdb"]}) ipdb.
Proof.
  split.
  - apply (named_selector_import_error ipdb_and_pdb {["PYDEBUG" := "pudb"]}
             "pudb" pudb); [reflexivity | left; split; reflexivity | reflexivity].
  - apply (named_selector_import_error only_pdb {["BB" := "ipdb"]}
             "ipdb" ipdb); [reflexivity | right; split; reflexivity | reflexivity].
Defined.



(** C6, as stated, fails: with the selector "1" and none of the three
    modules importable, the last import raises and [bb] is unbound. *)
Lemma selector_1_unbound_without_pdb :
  selector (load no_debugger {["PYDEBUG" := "1"]}) = Some (PyStr "1") ∧
  (load no_debugger {["PYDEBUG" := "1"]}).1 = Raised (ImportError pdb) ∧
  globals (load no_debugger {["PYDEBUG" := "1"]}).2 !! "bb" = None ∧
  ¬ ∃ c, binds (load no_debugger {["PYDEBUG" := "1"]}) c.
Proof.
  repeat split; try reflexivity.
  intros [c [Hc _]]. vm_compute in Hc. discriminate Hc.
Qed.

(** C6, amended: when the selector is "1" and pdb is importable, [bb] is
    bound when the load ends, whatever the availability of pudb and ipdb,
    and to [pdb.set_trace] when both are unavailable.  When none of the
    three is importable the load raises [ImportError] for pdb and [bb] is
    unbound. *)
Theorem selector_1_bound_when_pdb_importable (importable : module → bool) env :
  selector (load importable env) = Some (PyStr "1") →
  (importable pdb = true →
     ∃ c, binds (load importable env) c ∧
          (importable pudb = false → importable ipdb = false →
           c = set_trace pdb)) ∧
  (importable pudb = false → importable ipdb = false →
   importable pdb = false → fails (load importable env) pdb).
Proof.
  intros Hsel. apply selector_resolved in Hsel.
  pose proof (chain_1 importable env Hsel) as Hrun.
  split.
  - intros H3. rewrite H3 in Hrun.
    destruct (importable pudb); [by eexists | ].
    destruct (importable ipdb); by eexists.
  - intros H1 H2 H3. by rewrite H1, H2, H3 in Hrun.
Qed.

Lemma selector_1_bound_when_pdb_importable_witness :
  (∃ c, binds (load only_pdb {["BB" := "1"]}) c ∧
        (only_pdb pudb = false → only_pdb ipdb = false → c = set_trace pdb)) ∧
  fails (load no_debugger {["PYDEBUG" := "1"]}) pdb.
Proof.
  split.
  - apply (selector_1_bound_when_pdb_importable only_pdb {["BB" := "1"]});
      reflexivity.
  - apply (selector_1_bound_when_pdb_importable no_debugger
             {["PYDEBUG" := "1"]}); reflexivity.
Defined.

(** ** The environment side of a load *)

(** A variable the environment does not define, or defines as [''];
    [os.environ.get(k, '')] cannot tell the two apart. *)
Definition unset_or_empty (env : gmap string string) (k : string) : Prop :=
  env !! k = None ∨ env !! k = Some "".

Lemma getenv_empty env k : getenv env k = "" ↔ unset_or_empty env k.
Proof.
  unfold getenv, unset_or_empty. destruct (env !! k) as [v|]; simpl.
  - split; [intros -> | intros [|]]; [by right | done | congruence].
  - split; [by left | done].
Qed.

Lemma getenv_Some env k v : env !! k = Some v → getenv env k = v.
Proof. unfold getenv. by intros ->. Qed.

Lemma load_environ importable env :
  environ (load importable env).2 =
    (if copies env then <["PYDEBUG" := getenv env "BB"]> env else env) ∧
  putenv (load importable env).2 =
    (if copies env then [("PYDEBUG", getenv env "BB")] else []).
Proof.
  rewrite load_resolved.
  destruct (bind_bb_frame importable (resolved env) (at_line_11 env))
    as (He & Hp & _).
  by rewrite He, Hp.
Qed.

Lemma copies_true env :
  copies env = true ↔ getenv env "PYDEBUG" = "" ∧ getenv env "BB" ≠ "".
Proof.
  unfold copies. rewrite andb_true_iff, negb_true_iff.
  by rewrite String.eqb_eq, String.eqb_neq.
Qed.

Lemma copies_false env :
  copies env = false ↔ getenv env "PYDEBUG" ≠ "" ∨ getenv env "BB" = "".
Proof.
  unfold copies. rewrite andb_false_iff, negb_false_iff.
  by rewrite String.eqb_eq, String.eqb_neq.
Qed.

Lemma resolved_set env :
  getenv env "PYDEBUG" ≠ "" → resolved env = getenv env "PYDEBUG".
Proof. unfold resolved. intros H. apply String.eqb_neq in H. by rewrite H. Qed.

Lemma resolved_fallback env :
  getenv env "PYDEBUG" = "" → resolved env = getenv env "BB".
Proof. unfold resolved. by intros ->. Qed.

(** Lines 11-26 read the interpreter's modules and the globals, nothing
    else of the state. *)
Lemma bind_bb_cong (imp1 imp2 : module → bool) s st1 st2 :
  (∀ m, imp1 m = imp2 m) → globals st1 = globals st2 →
  (bind_bb imp1 s st1).1 = (bind_bb imp2 s st2).1 ∧
  globals (bind_bb imp1 s st1).2 = globals (bind_bb imp2 s st2).2.
Proof.
  intros Himp Hg. run. rewrite !Himp.
  repeat match goal with
         | |- context [String.eqb ?a ?b] => destruct (String.eqb a b)
         | |- context [imp2 ?m] => destruct (imp2 m)
         end; simpl; by rewrite ?Hg.
Qed.

(** Every load either returns with [bb] bound or raises an import error
    with [bb] unbound. *)
Lemma load_cases (importable : module → bool) env :
  (∃ c, binds (load importable env) c) ∨ (∃ m, fails (load importable env) m).
Proof.
  destruct (decide (resolved env = "1")) as [H1|H1].
  { pose proof (chain_1 importable env H1) as Hrun.
    destruct (importable pudb), (importable ipdb), (importable pdb); eauto. }
  assert (∀ s m,
    (s = "pudb" ∧ m = pudb) ∨ (s = "ipdb" ∧ m = ipdb) ∨ (s = "pdb" ∧ m = pdb) →
    resolved env = s →
    (∃ c, binds (load importable env) c) ∨
    (∃ m, fails (load importable env) m)) as Hnamed.
  { intros s m Hm Hs. pose proof (chain_named importable env s m Hs Hm) as Hrun.
    destruct (importable m); eauto. }
  destruct (decide (resolved env = "pudb")) as [H2|H2];
    [apply (Hnamed "pudb" pudb); tauto | ].
  destruct (decide (resolved env = "pdb")) as [H3|H3];
    [apply (Hnamed "pdb" pdb); tauto | ].
  destruct (decide (resolved env = "ipdb")) as [H4|H4];
    [apply (Hnamed "ipdb" ipdb); tauto | ].
  left. exists def_bb. rewrite load_resolved, bind_bb_else.
  - apply assign_def_bb_binds.
  - unfold recognized. tauto.
Qed.

(** C2: when PYDEBUG is unset or empty and BB is non-empty, after the load
    the environment's PYDEBUG holds BB's value, also when the load raises;
    the chain runs on that value, so the load ends as one started with
    PYDEBUG already set to it (same outcome, same globals, same
    environment).  With BB="pdb" and pdb importable, [bb] is
    [pdb.set_trace]. *)
Theorem BB_copied_into_PYDEBUG (importable : module → bool) env v :
  unset_or_empty env "PYDEBUG" → env !! "BB" = Some v → v ≠ "" →
  environ (load importable env).2 !! "PYDEBUG" = Some v ∧
  selector (load importable env) = Some (PyStr v) ∧
  (load importable env).1 = (load importable (<["PYDEBUG" := v]> env)).1 ∧
  globals (load importable env).2 =
    globals (load importable (<["PYDEBUG" := v]> env)).2 ∧
  environ (load importable env).2 =
    environ (load importable (<["PYDEBUG" := v]> env)).2 ∧
  (v = "pdb" → importable pdb = true →
     binds (load importable env) (set_trace pdb)).
Proof.
  intros Hp Hb Hv. apply getenv_empty in Hp. apply getenv_Some in Hb.
  assert (copies env = true) as Hc by (apply copies_true; by rewrite Hb).
  assert (resolved env = v) as Hr by (by rewrite resolved_fallback).
  assert (getenv (<["PYDEBUG" := v]> env) "PYDEBUG" = v) as Hp'
    by (unfold getenv; by rewrite lookup_insert_eq).
  assert (resolved (<["PYDEBUG" := v]> env) = v) as Hr'
    by (rewrite resolved_set; by rewrite Hp').
  assert (copies (<["PYDEBUG" := v]> env) = false) as Hc'
    by (apply copies_false; left; by rewrite Hp').
  destruct (load_environ importable env) as [He _].
  destruct (load_environ importable (<["PYDEBUG" := v]> env)) as [He' _].
  rewrite Hc, Hb in He. rewrite Hc' in He'.
  destruct (bind_bb_cong importable importable v
              (at_line_11 env) (at_line_11 (<["PYDEBUG" := v]> env)))
    as [Ho Hg]; [done | simpl; by rewrite Hr, Hr' | ].
  refine (conj _ (conj _ (conj _ (conj _ (conj _ _))))).
  - by rewrite He, lookup_insert_eq.
  - by rewrite selector_load, Hr.
  - by rewrite !load_resolved, Hr, Hr'.
  - by rewrite !load_resolved, Hr, Hr'.
  - by rewrite He, He'.
  - intros -> Hpdb.
    pose proof (chain_named importable env "pdb" pdb Hr) as Hrun.
    rewrite Hpdb in Hrun. apply Hrun. tauto.
Qed.

Lemma BB_copied_into_PYDEBUG_witness :
  environ (load only_pdb {["BB" := "pdb"]}).2 !! "PYDEBUG" = Some "pdb" ∧
  binds (load only_pdb {["BB" := "pdb"]}) (set_trace pdb) ∧
  environ (load only_pdb {["BB" := "pudb"; "PYDEBUG" := ""]}).2 !! "PYDEBUG"
    = Some "pudb".
Proof.
  split; [ | split].
  - apply (BB_copied_into_PYDEBUG only_pdb {["BB" := "pdb"]} "pdb");
      [left; reflexivity | reflexivity | discriminate].
  - apply (BB_copied_into_PYDEBUG only_pdb {["BB" := "pdb"]} "pdb");
      [left; reflexivity | reflexivity | discriminate | reflexivity
      | reflexivity].
  - apply (BB_copied_into_PYDEBUG only_pdb
             {["BB" := "pudb"; "PYDEBUG" := ""]} "pudb");
      [right; reflexivity | reflexivity | discriminate].
Defined.

(** C3: when the selector is none of "1", "pudb", "pdb", "ipdb" (the empty
    string included), the load returns with [bb] bound to the function of
    line 26; called without arguments, that function returns [None] and
    leaves the process state as it was, whatever the debuggers would do;
    it takes no argument. *)
Theorem unrecognized_selector_noop (importable : module → bool) env s :
  selector (load importable env) = Some (PyStr s) →
  ¬ recognized s →
  binds (load importable env) def_bb ∧
  ∀ c, binds (load importable env) c →
    ∀ debugger st,
      call debugger c 0 st = (Returned PyNone, st) ∧
      ∀ n, call debugger c (S n) st = (Raised TypeError, st).
Proof.
  intros Hsel Hs. apply selector_resolved in Hsel.
  assert (binds (load importable env) def_bb) as Hb.
  { rewrite load_resolved, Hsel, bind_bb_else by done.
    apply assign_def_bb_binds. }
  split; [done | ]. intros c Hc debugger st.
  by rewrite (binds_inj _ _ _ Hc Hb).
Qed.

Lemma unrecognized_selector_noop_witness :
  binds (load all_debuggers ∅) def_bb ∧
  binds (load all_debuggers {["PYDEBUG" := "xyz"]}) def_bb.
Proof.
  split.
  - apply (unrecognized_selector_noop all_debuggers ∅ "");
      [reflexivity | ].
    unfold recognized. intros [H|[H|[H|H]]]; discriminate H.
  - apply (unrecognized_selector_noop all_debuggers {["PYDEBUG" := "xyz"]}
             "xyz"); [reflexivity | ].
    unfold recognized. intros [H|[H|[H|H]]]; discriminate H.
Defined.

(** C7, as stated, fails: with PYDEBUG unset, which is none of the four
    values, and BB="pdb", the load binds [bb] to [pdb.set_trace] and not to
    the function of line 26. *)
Lemma unset_PYDEBUG_with_BB_not_noop :
  ({["BB" := "pdb"]} : gmap string string) !! "PYDEBUG" = None ∧
  ¬ recognized (getenv {["BB" := "pdb"]} "PYDEBUG") ∧
  binds (load only_pdb {["BB" := "pdb"]}) (set_trace pdb) ∧
  ¬ binds (load only_pdb {["BB" := "pdb"]}) def_bb.
Proof.
  assert (binds (load only_pdb {["BB" := "pdb"]}) (set_trace pdb)) as Hb
    by (split; reflexivity).
  refine (conj _ (conj _ (conj Hb _))).
  - reflexivity.
  - unfold recognized. intros [H|[H|[H|H]]]; discriminate H.
  - intros Hn. discriminate (binds_inj _ _ _ Hb Hn).
Qed.

(** C7, amended: the function of line 26 is selected for [bb] in every
    initial environment in which PYDEBUG holds a non-empty value other
    than "1", "pudb", "pdb", "ipdb", and in every one in which PYDEBUG is
    unset or empty and BB is unset or holds a value other than those
    four. *)
Theorem unrecognized_environment_noop (importable : module → bool) env :
  (getenv env "PYDEBUG" ≠ "" → ¬ recognized (getenv env "PYDEBUG") →
     binds (load importable env) def_bb) ∧
  (unset_or_empty env "PYDEBUG" → ¬ recognized (getenv env "BB") →
     binds (load importable env) def_bb).
Proof.
  split.
  - intros Hp Hn. rewrite load_resolved, resolved_set, bind_bb_else by done.
    apply assign_def_bb_binds.
  - intros Hp Hn. apply getenv_empty in Hp.
    rewrite load_resolved, resolved_fallback, bind_bb_else by done.
    apply assign_def_bb_binds.
Qed.

Lemma unrecognized_environment_noop_witness :
  binds (load all_debuggers {["PYDEBUG" := "xyz"; "BB" := "pdb"]}) def_bb ∧
  binds (load all_debuggers {["BB" := "gdb"]}) def_bb ∧
  binds (load all_debuggers ∅) def_bb.
Proof.
  split; [ | split].
  - apply (proj1 (unrecognized_environment_noop all_debuggers
                    {["PYDEBUG" := "xyz"; "BB" := "pdb"]}));
      [intros H; vm_compute in H; discriminate H | ].
    unfold recognized. intros [H|[H|[H|H]]]; discriminate H.
  - apply (proj2 (unrecognized_environment_noop all_debuggers
                    {["BB" := "gdb"]})); [left; reflexivity | ].
    unfold recognized. intros [H|[H|[H|H]]]; discriminate H.
  - apply (proj2 (unrecognized_environment_noop all_debuggers ∅));
      [left; reflexivity | ].
    unfold recognized. intros [H|[H|[H|H]]]; discriminate H.
Defined.

(** C8: a load writes to the environment at most once: either nothing is
    written and the environment is as before, or PYDEBUG was unset or empty,
    BB holds a non-empty value, and the one write stores that value in
    PYDEBUG.  When PYDEBUG is set to a non-empty value nothing is written.
    In every case each variable other than PYDEBUG reads as before. *)
Theorem load_environment_effect (importable : module → bool) env :
  ((putenv (load importable env).2 = [] ∧
    environ (load importable env).2 = env) ∨
   (∃ v, unset_or_empty env "PYDEBUG" ∧ env !! "BB" = Some v ∧ v ≠ "" ∧
         putenv (load importable env).2 = [("PYDEBUG", v)] ∧
         environ (load importable env).2 = <["PYDEBUG" := v]> env)) ∧
  (getenv env "PYDEBUG" ≠ "" →
     putenv (load importable env).2 = [] ∧
     environ (load importable env).2 = env) ∧
  (∀ k, k ≠ "PYDEBUG" → environ (load importable env).2 !! k = env !! k).
Proof.
  destruct (load_environ importable env) as [He Hp].
  destruct (copies env) eqn:Hc.
  - apply copies_true in Hc as [Hc1 Hc2].
    assert (env !! "BB" = Some (getenv env "BB")) as Hbb.
    { unfold getenv in *. by destruct (env !! "BB"). }
    refine (conj _ (conj _ _)).
    + right. exists (getenv env "BB"). by rewrite <- getenv_empty.
    + done.
    + intros k Hk. by rewrite He, lookup_insert_ne.
  - refine (conj _ (conj _ _)).
    + by left.
    + done.
    + intros k Hk. by rewrite He.
Qed.

Lemma load_environment_effect_witness :
  putenv (load all_debuggers {["PYDEBUG" := "xyz"; "BB" := "pdb"]}).2 = [] ∧
  environ (load all_debuggers {["PYDEBUG" := "xyz"; "BB" := "pdb"]}).2 =
    {["PYDEBUG" := "xyz"; "BB" := "pdb"]} ∧
  environ (load all_debuggers {["BB" := "pdb"]}).2 !! "BB" = Some "pdb".
Proof.
  split; [ | split].
  - apply (proj1 (proj2 (load_environment_effect all_debuggers
                           {["PYDEBUG" := "xyz"; "BB" := "pdb"]}))).
    intros H; vm_compute in H; discriminate H.
  - apply (proj1 (proj2 (load_environment_effect all_debuggers
                           {["PYDEBUG" := "xyz"; "BB" := "pdb"]}))).
    intros H; vm_compute in H; discriminate H.
  - rewrite (proj2 (proj2 (load_environment_effect all_debuggers
                             {["BB" := "pdb"]})) "BB"); [reflexivity | ].
    discriminate.
Defined.

(** C9: the load is a function of the environment's PYDEBUG and BB and of
    which of the three modules are importable: two loads that agree on
    these end with the same outcome and the same globals, [bb] included.
    A load that returns leaves [bb] bound to exactly one callable. *)
Theorem load_deterministic (imp1 imp2 : module → bool) env1 env2 :
  env1 !! "PYDEBUG" = env2 !! "PYDEBUG" →
  env1 !! "BB" = env2 !! "BB" →
  (∀ m, imp1 m = imp2 m) →
  (load imp1 env1).1 = (load imp2 env2).1 ∧
  globals (load imp1 env1).2 = globals (load imp2 env2).2 ∧
  ((load imp1 env1).1 = Returned tt →
     ∃ c, ∀ c', binds (load imp1 env1) c' ↔ c' = c).
Proof.
  intros Hp Hb Himp.
  assert (resolved env1 = resolved env2) as Hr
    by (unfold resolved, getenv; by rewrite Hp, Hb).
  destruct (bind_bb_cong imp1 imp2 (resolved env1)
              (at_line_11 env1) (at_line_11 env2) Himp) as [Ho Hg];
    [simpl; by rewrite Hr | ].
  refine (conj _ (conj _ _)).
  - rewrite !load_resolved. by rewrite <- Hr.
  - rewrite !load_resolved. by rewrite <- Hr.
  - intros Hret. destruct (load_cases imp1 env1) as [[c Hc]|[m [Hm _]]].
    + exists c. intros c'. split; [ | by intros ->].
      intros Hc'. exact (binds_inj _ _ _ Hc' Hc).
    + congruence.
Qed.

Lemma load_deterministic_witness :
  (load ipdb_and_pdb {["PYDEBUG" := "1"; "HOME" := "/root"]}).1 =
  (load ipdb_and_pdb {["PYDEBUG" := "1"]}).1 ∧
  globals (load ipdb_and_pdb {["PYDEBUG" := "1"; "HOME" := "/root"]}).2 =
  globals (load ipdb_and_pdb {["PYDEBUG" := "1"]}).2 ∧
  ∃ c, ∀ c', binds (load ipdb_and_pdb
                      {["PYDEBUG" := "1"; "HOME" := "/root"]}) c' ↔ c' = c.
Proof.
  destruct (load_deterministic ipdb_and_pdb ipdb_and_pdb
              {["PYDEBUG" := "1"; "HOME" := "/root"]} {["PYDEBUG" := "1"]})
    as (Ho & Hg & Hone); [reflexivity | reflexivity | reflexivity | ].
  split; [exact Ho | split; [exact Hg | ]]. apply Hone. reflexivity.
Defined.

(** C10: no write to the environment stores the empty string, and the load
    never turns an environment without an empty PYDEBUG entry into one with
    it.  When PYDEBUG is unset or empty and BB is unset or empty, nothing
    is written and the environment is the one the load started with. *)
Theorem no_empty_PYDEBUG_write (importable : module → bool) env :
  (∀ k v, (k, v) ∈ putenv (load importable env).2 → v ≠ "") ∧
  (environ (load importable env).2 !! "PYDEBUG" = Some "" →
     env !! "PYDEBUG" = Some "") ∧
  (unset_or_empty env "PYDEBUG" → unset_or_empty env "BB" →
     putenv (load importable env).2 = [] ∧
     environ (load importable env).2 = env).
Proof.
  destruct (load_environ importable env) as [He Hp].
  destruct (copies env) eqn:Hc.
  - apply copies_true in Hc as [Hc1 Hc2].
    refine (conj _ (conj _ _)).
    + intros k v. rewrite Hp. intros Hin%list_elem_of_singleton. congruence.
    + rewrite He, lookup_insert_eq. congruence.
    + intros _ Hbb%getenv_empty. done.
  - refine (conj _ (conj _ _)).
    + intros k v. rewrite Hp. by intros ?%elem_of_nil.
    + by rewrite He.
    + done.
Qed.

Lemma no_empty_PYDEBUG_write_witness :
  putenv (load all_debuggers {["BB" := ""; "HOME" := "/root"]}).2 = [] ∧
  environ (load all_debuggers {["BB" := ""; "HOME" := "/root"]}).2 =
    {["BB" := ""; "HOME" := "/root"]} ∧
  environ (load all_debuggers ∅).2 = ∅.
Proof.
  split; [ | split].
  - apply (proj2 (proj2 (no_empty_PYDEBUG_write all_debuggers
                           {["BB" := ""; "HOME" := "/root"]})));
      [left; reflexivity | right; reflexivity].
  - apply (proj2 (proj2 (no_empty_PYDEBUG_write all_debuggers
                           {["BB" := ""; "HOME" := "/root"]})));
      [left; reflexivity | right; reflexivity].
  - apply (proj2 (proj2 (no_empty_PYDEBUG_write all_debuggers ∅)));
      left; reflexivity.
Defined.


(** ** Further properties of the module body *)

(** The chain either returns having assigned [bb] once, or raises the
    import error of a module that is not importable and assigns nothing. *)
Lemma bind_bb_shape (importable : module → bool) s st :
  (∃ c, (bind_bb importable s st).1 = Returned tt ∧
        globals (bind_bb importable s st).2
          = <["bb" := PyCallable c]> (globals st)) ∨
  (∃ m, (bind_bb importable s st).1 = Raised (ImportError m) ∧
        importable m = false ∧
        globals (bind_bb importable s st).2 = globals st).
Proof.
  run.
  repeat match goal with
         | |- context [String.eqb ?a ?b] => destruct (String.eqb a b)
         | |- context [importable ?m] => destruct (importable m) eqn:?
         end; simpl; eauto.
Qed.

Lemma getenv_insert_eq env k v : getenv (<[k := v]> env) k = v.
Proof. unfold getenv. by rewrite lookup_insert_eq. Qed.

(** The selector and the write decision only need what
    [os.environ.get] returns for the two variables. *)
Lemma resolved_ext env1 env2 :
  getenv env1 "PYDEBUG" = getenv env2 "PYDEBUG" →
  getenv env1 "BB" = getenv env2 "BB" →
  resolved env1 = resolved env2 ∧ copies env1 = copies env2.
Proof. unfold resolved, copies. by intros -> ->. Qed.

(** Outcome and globals of a load are those of the chain run on the
    selector; two environments with the same selector give the same. *)
Lemma load_same_selector (importable : module → bool) env1 env2 :
  resolved env1 = resolved env2 →
  (load importable env1).1 = (load importable env2).1 ∧
  globals (load importable env1).2 = globals (load importable env2).2.
Proof.
  intros Hr. rewrite !load_resolved, <- Hr.
  apply bind_bb_cong; [done | ]. simpl. by rewrite Hr.
Qed.

(** X1: loading again in the environment a load has left (a reload, or a
    child process that inherits it) ends with the same outcome and the same
    globals, writes nothing and leaves that environment as it is: the copy
    of BB into PYDEBUG happens once. *)
Theorem reload_stable (importable : module → bool) env :
  (load importable (environ (load importable env).2)).1
    = (load importable env).1 ∧
  globals (load importable (environ (load importable env).2)).2
    = globals (load importable env).2 ∧
  putenv (load importable (environ (load importable env).2)).2 = [] ∧
  environ (load importable (environ (load importable env).2)).2
    = environ (load importable env).2.
Proof.
  destruct (load_environ importable env) as [He _].
  destruct (load_environ importable (environ (load importable env).2))
    as [He' Hp'].
  assert (resolved (environ (load importable env).2) = resolved env ∧
          copies (environ (load importable env).2) = false) as [Hr Hc].
  { rewrite He. destruct (copies env) eqn:Hc.
    - apply copies_true in Hc as [Hc1 Hc2]. split.
      + rewrite resolved_set, getenv_insert_eq by (by rewrite getenv_insert_eq).
        by rewrite resolved_fallback.
      + apply copies_false. left. by rewrite getenv_insert_eq.
    - done. }
  rewrite Hc in He', Hp'.
  destruct (load_same_selector importable _ _ Hr) as [Ho Hg].
  done.
Qed.

(** X2: a non-empty PYDEBUG takes precedence: two environments that agree
    on it give loads with the same outcome and the same globals, whatever
    BB and the other variables hold, and neither load writes to the
    environment. *)
Theorem PYDEBUG_precedence (importable : module → bool) env1 env2 :
  getenv env1 "PYDEBUG" ≠ "" →
  env2 !! "PYDEBUG" = env1 !! "PYDEBUG" →
  (load importable env1).1 = (load importable env2).1 ∧
  globals (load importable env1).2 = globals (load importable env2).2 ∧
  putenv (load importable env1).2 = [] ∧
  putenv (load importable env2).2 = [].
Proof.
  intros Hp Heq.
  assert (getenv env2 "PYDEBUG" = getenv env1 "PYDEBUG") as Hg
    by (unfold getenv; by rewrite Heq).
  assert (resolved env1 = resolved env2) as Hr
    by (rewrite !resolved_set; by rewrite ?Hg).
  destruct (load_same_selector importable _ _ Hr) as [Ho Hgl].
  destruct (load_environ importable env1) as [_ Hp1].
  destruct (load_environ importable env2) as [_ Hp2].
  assert (copies env1 = false) as Hc1 by (apply copies_false; by left).
  assert (copies env2 = false) as Hc2
    by (apply copies_false; left; by rewrite Hg).
  by rewrite Hc1 in Hp1; rewrite Hc2 in Hp2.
Qed.

Lemma PYDEBUG_precedence_witness :
  (load only_pdb {["PYDEBUG" := "pdb"; "BB" := "pudb"]}).1 =
  (load only_pdb {["PYDEBUG" := "pdb"]}).1 ∧
  globals (load only_pdb {["PYDEBUG" := "pdb"; "BB" := "pudb"]}).2 =
  globals (load only_pdb {["PYDEBUG" := "pdb"]}).2 ∧
  putenv (load only_pdb {["PYDEBUG" := "pdb"; "BB" := "pudb"]}).2 = [] ∧
  putenv (load only_pdb {["PYDEBUG" := "pdb"]}).2 = [].
Proof.
  apply (PYDEBUG_precedence only_pdb {["PYDEBUG" := "pdb"; "BB" := "pudb"]}
           {["PYDEBUG" := "pdb"]}).
  - intros H. vm_compute in H. discriminate H.
  - reflexivity.
Defined.

(** X3: a variable set to the empty string counts as unset, for PYDEBUG
    and for BB: two environments in which [os.environ.get(k, '')] returns
    the same for both variables give loads with the same outcome, the same
    globals and the same writes. *)
Theorem empty_as_unset (importable : module → bool) env1 env2 :
  getenv env1 "PYDEBUG" = getenv env2 "PYDEBUG" →
  getenv env1 "BB" = getenv env2 "BB" →
  (load importable env1).1 = (load importable env2).1 ∧
  globals (load importable env1).2 = globals (load importable env2).2 ∧
  putenv (load importable env1).2 = putenv (load importable env2).2.
Proof.
  intros Hp Hb. destruct (resolved_ext env1 env2 Hp Hb) as [Hr Hc].
  destruct (load_same_selector importable _ _ Hr) as [Ho Hg].
  destruct (load_environ importable env1) as [_ Hp1].
  destruct (load_environ importable env2) as [_ Hp2].
  by rewrite Hp1, Hp2, Hc, Hb.
Qed.

Lemma empty_as_unset_witness :
  (load only_pdb {["PYDEBUG" := ""; "BB" := "pdb"]}).1 =
  (load only_pdb {["BB" := "pdb"]}).1 ∧
  globals (load only_pdb {["PYDEBUG" := ""; "BB" := "pdb"]}).2 =
  globals (load only_pdb {["BB" := "pdb"]}).2 ∧
  putenv (load only_pdb {["PYDEBUG" := ""; "BB" := "pdb"]}).2 =
  putenv (load only_pdb {["BB" := "pdb"]}).2.
Proof.
  apply (empty_as_unset only_pdb {["PYDEBUG" := ""; "BB" := "pdb"]}
           {["BB" := "pdb"]}); reflexivity.
Defined.

(** X4: when the body is left, returning or raising, the global [pydebug]
    holds what [os.environ.get('PYDEBUG', '')] returns in the environment
    the load has left: the selector used and the environment agree. *)
Theorem selector_agrees_with_environ (importable : module → bool) env :
  selector (load importable env) =
  Some (PyStr (getenv (environ (load importable env).2) "PYDEBUG")).
Proof.
  rewrite selector_load. destruct (load_environ importable env) as [He _].
  rewrite He. destruct (copies env) eqn:Hc.
  - apply copies_true in Hc as [Hc1 Hc2].
    by rewrite getenv_insert_eq, resolved_fallback.
  - apply copies_false in Hc as [Hc|Hc].
    + by rewrite resolved_set.
    + destruct (decide (getenv env "PYDEBUG" = "")) as [Hp|Hp].
      * rewrite resolved_fallback by done. by rewrite Hp, Hc.
      * by rewrite resolved_set.
Qed.

(** The selector [s] is the name of module [m]. *)
Definition names (s : string) (m : module) : Prop :=
  (s = "pudb" ∧ m = pudb) ∨ (s = "ipdb" ∧ m = ipdb) ∨ (s = "pdb" ∧ m = pdb).

(** Every load, by the exit of the chain it takes. *)
Lemma load_verdict (importable : module → bool) env :
  (resolved env = "1" ∧
   match importable pudb, importable ipdb, importable pdb with
   | true, _, _ => binds (load importable env) (set_trace pudb)
   | false, true, _ => binds (load importable env) (set_trace ipdb)
   | false, false, true => binds (load importable env) (set_trace pdb)
   | false, false, false => fails (load importable env) pdb
   end) ∨
  (∃ m, names (resolved env) m ∧
        if importable m then binds (load importable env) (set_trace m)
        else fails (load importable env) m) ∨
  (¬ recognized (resolved env) ∧ binds (load importable env) def_bb).
Proof.
  destruct (decide (resolved env = "1")) as [H1|H1].
  { left. split; [done | ]. by apply chain_1. }
  right.
  assert (∀ m, names (resolved env) m →
    ∃ m, names (resolved env) m ∧
         if importable m then binds (load importable env) (set_trace m)
         else fails (load importable env) m) as Hnamed.
  { intros m Hm. exists m. split; [done | ].
    by apply (chain_named importable env (resolved env) m). }
  unfold names in Hnamed.
  destruct (decide (resolved env = "pudb")) as [H2|H2];
    [left; apply (Hnamed pudb); tauto | ].
  destruct (decide (resolved env = "pdb")) as [H3|H3];
    [left; apply (Hnamed pdb); tauto | ].
  destruct (decide (resolved env = "ipdb")) as [H4|H4];
    [left; apply (Hnamed ipdb); tauto | ].
  right. assert (¬ recognized (resolved env)) as Hn
    by (unfold recognized; tauto).
  split; [done | ]. rewrite load_resolved, bind_bb_else by done.
  apply assign_def_bb_binds.
Qed.

(** X5: an [ImportError] that leaves a load is the one of the last
    candidate tried: with the selector "1" it is always the error of pdb,
    never that of pudb or ipdb, whose errors the handlers of lines 14 and
    17 take, and then none of the three is importable; with any other
    selector it is the error of the module the selector names.  In both
    cases [bb] is unbound. *)
Theorem import_error_is_of_last_candidate
    (importable : module → bool) env m :
  (load importable env).1 = Raised (ImportError m) →
  globals (load importable env).2 !! "bb" = None ∧
  ((selector (load importable env) = Some (PyStr "1") ∧ m = pdb ∧
    importable pudb = false ∧ importable ipdb = false ∧
    importable pdb = false) ∨
   (∃ s, selector (load importable env) = Some (PyStr s) ∧ names s m ∧
         importable m = false)).
Proof.
  intros He. rewrite selector_load.
  destruct (load_verdict importable env)
    as [[H1 Hrun]|[(m' & Hm & Hrun)|[_ [Hrun _]]]].
  - destruct (importable pudb) eqn:E1, (importable ipdb) eqn:E2,
      (importable pdb) eqn:E3;
      try (destruct Hrun as [Hrun _]; congruence).
    destruct Hrun as [Ho Hbb]. rewrite H1.
    assert (m = pdb) as -> by congruence.
    split; [done | ]. by left.
  - destruct (importable m') eqn:E; [destruct Hrun as [Hrun _]; congruence | ].
    destruct Hrun as [Ho Hbb].
    assert (m = m') as -> by congruence.
    split; [done | ]. right. by exists (resolved env).
  - congruence.
Qed.

Lemma import_error_is_of_last_candidate_witness :
  globals (load no_debugger {["BB" := "1"]}).2 !! "bb" = None ∧
  ((selector (load no_debugger {["BB" := "1"]}) = Some (PyStr "1") ∧
    pdb = pdb ∧ no_debugger pudb = false ∧ no_debugger ipdb = false ∧
    no_debugger pdb = false) ∨
   (∃ s, selector (load no_debugger {["BB" := "1"]}) = Some (PyStr s) ∧
         names s pdb ∧ no_debugger pdb = false)).
Proof.
  apply (import_error_is_of_last_candidate no_debugger {["BB" := "1"]} pdb).
  reflexivity.
Defined.

(** X6: [bb] is bound to a module's [set_trace] only when that module is
    importable and the selector is "1" or the module's name. *)
Theorem set_trace_bound_only_if_importable
    (importable : module → bool) env m :
  binds (load importable env) (set_trace m) →
  importable m = true ∧
  (selector (load importable env) = Some (PyStr "1") ∨
   ∃ s, selector (load importable env) = Some (PyStr s) ∧ names s m).
Proof.
  intros Hb. rewrite selector_load.
  destruct (load_verdict importable env)
    as [[H1 Hrun]|[(m' & Hm & Hrun)|[_ Hrun]]].
  - rewrite H1. split; [ | by left].
    destruct (importable pudb) eqn:E1, (importable ipdb) eqn:E2,
      (importable pdb) eqn:E3;
      solve [ destruct (binds_not_fails _ _ _ Hb Hrun)
            | pose proof (binds_inj _ _ _ Hb Hrun) as Heq;
              injection Heq as ->; done ].
  - destruct (importable m') eqn:E;
      [ | destruct (binds_not_fails _ _ _ Hb Hrun)].
    pose proof (binds_inj _ _ _ Hb Hrun) as Heq. injection Heq as ->.
    split; [done | ]. right. by exists (resolved env).
  - discriminate (binds_inj _ _ _ Hb Hrun).
Qed.

Lemma set_trace_bound_only_if_importable_witness :
  ipdb_and_pdb ipdb = true ∧
  (selector (load ipdb_and_pdb {["BB" := "1"]}) = Some (PyStr "1") ∨
   ∃ s, selector (load ipdb_and_pdb {["BB" := "1"]}) = Some (PyStr s) ∧
        names s ipdb).
Proof.
  apply (set_trace_bound_only_if_importable ipdb_and_pdb {["BB" := "1"]} ipdb).
  split; reflexivity.
Defined.

(** X7: [bb] is the function of line 26 only when the selector is none of
    "1", "pudb", "pdb", "ipdb": a recognized selector never ends in the
    no-op, also when its modules are missing. *)
Theorem noop_only_if_unrecognized (importable : module → bool) env :
  binds (load importable env) def_bb →
  ∃ s, selector (load importable env) = Some (PyStr s) ∧ ¬ recognized s.
Proof.
  intros Hb. exists (resolved env). rewrite selector_load. split; [done | ].
  destruct (load_verdict importable env)
    as [[H1 Hrun]|[(m & Hm & Hrun)|[Hn _]]]; [ | | done].
  - destruct (importable pudb), (importable ipdb), (importable pdb);
      solve [ destruct (binds_not_fails _ _ _ Hb Hrun)
            | discriminate (binds_inj _ _ _ Hb Hrun) ].
  - destruct (importable m);
      solve [ destruct (binds_not_fails _ _ _ Hb Hrun)
            | discriminate (binds_inj _ _ _ Hb Hrun) ].
Qed.

Lemma noop_only_if_unrecognized_witness :
  ∃ s, selector (load no_debugger {["PYDEBUG" := "PDB"]}) = Some (PyStr s) ∧
       ¬ recognized s.
Proof.
  apply (noop_only_if_unrecognized no_debugger {["PYDEBUG" := "PDB"]}).
  split; reflexivity.
Defined.

(** X8: the body defines the names [os] and [pydebug], and [bb] when it
    returns, and no other: a load that returns leaves exactly these three
    globals, a load that raises exactly the first two. *)
Theorem load_namespace (importable : module → bool) env :
  ((load importable env).1 = Returned tt →
     dom (globals (load importable env).2) = {["os"; "pydebug"; "bb"]}) ∧
  (∀ e, (load importable env).1 = Raised e →
     dom (globals (load importable env).2) = {["os"; "pydebug"]}).
Proof.
  rewrite load_resolved.
  assert (dom (globals (at_line_11 env)) = ({["os"; "pydebug"]} : gset string))
    as Hdom.
  { simpl. rewrite dom_insert_L, dom_singleton_L. set_solver. }
  destruct (bind_bb_shape importable (resolved env) (at_line_11 env))
    as [(c & Ho & Hg)|(m & Ho & _ & Hg)]; rewrite Ho, Hg.
  - split; [intros _ | intros e He; discriminate He].
    rewrite dom_insert_L, Hdom. set_solver.
  - split; [intros He; discriminate He | by intros e _].
Qed.

Lemma load_namespace_witness :
  dom (globals (load only_pdb {["BB" := "1"]}).2) = {["os"; "pydebug"; "bb"]} ∧
  dom (globals (load only_pdb {["BB" := "ipdb"]}).2) = {["os"; "pydebug"]}.
Proof.
  split.
  - apply (proj1 (load_namespace only_pdb {["BB" := "1"]})). reflexivity.
  - apply (proj2 (load_namespace only_pdb {["BB" := "ipdb"]})
             (ImportError ipdb)). reflexivity.
Defined.

(** X9: with pdb importable, a load raises only for the selectors "pudb"
    and "ipdb": for every other selector it returns with [bb] bound. *)
Theorem load_returns_when_pdb_importable (importable : module → bool) env :
  importable pdb = true →
  selector (load importable env) ≠ Some (PyStr "pudb") →
  selector (load importable env) ≠ Some (PyStr "ipdb") →
  ∃ c, binds (load importable env) c.
Proof.
  rewrite selector_load. intros Hpdb Hn1 Hn2.
  destruct (load_verdict importable env)
    as [[H1 Hrun]|[(m & Hm & Hrun)|[_ Hrun]]].
  - rewrite Hpdb in Hrun.
    destruct (importable pudb), (importable ipdb); by eexists.
  - destruct Hm as [[Hs _]|[[Hs _]|[Hs ->]]]; [congruence | congruence | ].
    rewrite Hpdb in Hrun. by eexists.
  - by eexists.
Qed.

Lemma load_returns_when_pdb_importable_witness :
  ∃ c, binds (load only_pdb {["BB" := "1"]}) c.
Proof.
  apply (load_returns_when_pdb_importable only_pdb {["BB" := "1"]});
    [reflexivity | discriminate | discriminate].
Defined.
